(** * ChatterBox service manager: a shallow embedding of
      [chatterbox_manager.py] and the properties of its lifecycle
      operations.

    The manager is a short-lived, single-threaded script that talks to
    four collaborators: the PID file, the process table, the health
    endpoint and the clock.  They are gathered in one [World] record that
    every operation threads; each interaction also leaves an [Event] in a
    chronological trace, so that orderings can be stated. *)

From Stdlib Require Import ZArith Ascii String List.
From stdpp Require Import base tactics option list gmap strings pretty.

Local Open Scope Z_scope.

(** ** Python values, exceptions, HTTP replies *)

(** The exception classes the manager can meet.  [is_OSError] and
    [is_ValueError] follow the class hierarchy ([IOError] is an alias of
    [OSError]; [FileNotFoundError], [PermissionError] and
    [ProcessLookupError] derive from it; [OverflowError] derives from
    [ArithmeticError], outside both). *)
Inductive exn :=
  | ValueError
  | OSError
  | FileNotFoundError
  | PermissionError
  | ProcessLookupError
  | NoSuchProcess
  | AccessDenied
  | RequestException
  | JSONDecodeError
  | AttributeError
  | OverflowError.

Definition is_OSError (e : exn) : bool :=
  match e with
  | OSError | FileNotFoundError | PermissionError | ProcessLookupError => true
  | _ => false
  end.

Definition is_ValueError (e : exn) : bool :=
  match e with
  | ValueError | JSONDecodeError => true
  | _ => false
  end.

(** [str(e)], up to the class: the text only reaches the activity log. *)
Definition exn_str (e : exn) : string :=
  match e with
  | ValueError => "invalid literal for int() with base 10"
  | OSError => "Input/output error"
  | FileNotFoundError => "No such file or directory"
  | PermissionError => "Operation not permitted"
  | ProcessLookupError => "No such process"
  | NoSuchProcess => "process no longer exists"
  | AccessDenied => "access denied"
  | RequestException => "request failed"
  | JSONDecodeError => "Expecting value"
  | AttributeError => "object has no attribute 'get'"
  | OverflowError => "signed integer is greater than maximum"
  end.

(** What [response.json()] can hand back.  A float is kept only up to
    what the code observes of it, whether it is zero. *)
#[warnings="-register-all"]
Inductive pyval :=
  | PNone
  | PBool (b : bool)
  | PInt (z : Z)
  | PFloat (nonzero : bool)
  | PStr (s : string)
  | PList (l : list pyval)
  | PDict (d : list (string * pyval)).

(** Python truth value, as used by [if data.get('model_loaded')]. *)
Definition truthy (v : pyval) : bool :=
  match v with
  | PNone => false
  | PBool b => b
  | PInt z => negb (z =? 0)
  | PFloat nz => nz
  | PStr s => negb (String.eqb s EmptyString)
  | PList l => match l with [] => false | _ => true end
  | PDict d => match d with [] => false | _ => true end
  end.

Fixpoint assoc_get (k : string) (d : list (string * pyval)) : option pyval :=
  match d with
  | [] => None
  | (k', v) :: d' => if String.eqb k k' then Some v else assoc_get k d'
  end.

Record Response := {
  status_code : Z;
  json_body : option pyval   (* None: the body is not JSON *)
}.

(** One answer of the health endpoint to one [GET /health]: how long the
    call took (milliseconds) and either a reply or a failure (refused
    connection, timeout, ...). *)
Record HttpOutcome := {
  took : N;
  reply : option Response
}.

Definition connection_refused : HttpOutcome := {| took := 0; reply := None |}.

(** ** Processes *)

Inductive CmdlineOutcome :=
  | Cmdline (argv : list string)
  | CmdNoSuchProcess
  | CmdAccessDenied.

Record Proc := {
  cmdline : CmdlineOutcome;   (* what psutil.Process(pid).cmdline() gives *)
  signalable : bool;          (* false: os.kill raises PermissionError *)
  dies_on_term : bool         (* exits within the grace period on SIGTERM *)
}.

Inductive Signal := SIGTERM | SIGKILL.

(** ** The PID file *)

Inductive FileData :=
  | Readable (text : string)
  | Unreadable.               (* read_text raises an I/O error *)

(** ** Events and the world *)

Inductive Event :=
  | EvPrint (line : string)
  | EvPrintField (label : string) (v : pyval)
  | EvLogAppend (line : string)
  | EvHealthGet (timeout : Z) (o : HttpOutcome)
  | EvSleep (ms : Z)
  | EvKill (pid : Z) (sig : Signal)
  | EvOpenLogs
  | EvSpawn (argv : list string) (child : option Z)
  | EvWritePid (text : string)
  | EvUnlinkPid.

Record World := {
  sys_executable : string;
  SERVICE_DIR : string;
  pid_file : option FileData;      (* PID_FILE; None: it does not exist *)
  procs : gmap Z Proc;             (* the process table *)
  health : list HttpOutcome;       (* what the next GET /health calls yield *)
  spawn_result : option Z;         (* PID of the next Popen; None: it fails *)
  clock : Z;                       (* time.time(), in milliseconds *)
  trace : list Event               (* oldest first *)
}.

Definition set_pid_file (f : option FileData) (w : World) : World :=
  {| sys_executable := sys_executable w; SERVICE_DIR := SERVICE_DIR w;
     pid_file := f; procs := procs w; health := health w;
     spawn_result := spawn_result w; clock := clock w; trace := trace w |}.

Definition set_procs (p : gmap Z Proc) (w : World) : World :=
  {| sys_executable := sys_executable w; SERVICE_DIR := SERVICE_DIR w;
     pid_file := pid_file w; procs := p; health := health w;
     spawn_result := spawn_result w; clock := clock w; trace := trace w |}.

Definition set_health (h : list HttpOutcome) (w : World) : World :=
  {| sys_executable := sys_executable w; SERVICE_DIR := SERVICE_DIR w;
     pid_file := pid_file w; procs := procs w; health := h;
     spawn_result := spawn_result w; clock := clock w; trace := trace w |}.

Definition set_spawn_result (r : option Z) (w : World) : World :=
  {| sys_executable := sys_executable w; SERVICE_DIR := SERVICE_DIR w;
     pid_file := pid_file w; procs := procs w; health := health w;
     spawn_result := r; clock := clock w; trace := trace w |}.

Definition advance (ms : Z) (w : World) : World :=
  {| sys_executable := sys_executable w; SERVICE_DIR := SERVICE_DIR w;
     pid_file := pid_file w; procs := procs w; health := health w;
     spawn_result := spawn_result w; clock := clock w + ms; trace := trace w |}.

Definition record (ev : Event) (w : World) : World :=
  {| sys_executable := sys_executable w; SERVICE_DIR := SERVICE_DIR w;
     pid_file := pid_file w; procs := procs w; health := health w;
     spawn_result := spawn_result w; clock := clock w;
     trace := trace w ++ [ev] |}.

(** ** The monad: state, exceptions, and a fuel guard for the one loop *)

Inductive outcome (A : Type) :=
  | Val (a : A)
  | Raised (e : exn)
  | Diverged.
Arguments Val {A} a.
Arguments Raised {A} e.
Arguments Diverged {A}.

Definition M (A : Type) : Type := World → outcome A * World.

Definition ret {A} (a : A) : M A := λ w, (Val a, w).

Definition bind {A B} (m : M A) (f : A → M B) : M B := λ w,
  match m w with
  | (Val a, w') => f a w'
  | (Raised e, w') => (Raised e, w')
  | (Diverged, w') => (Diverged, w')
  end.

Declare Scope py_scope.
Delimit Scope py_scope with py.
Notation "x ← y ; z" := (bind y (λ x, z))
  (at level 20, y at level 100, z at level 200, only parsing) : py_scope.
Notation "x ;; z" := (bind x (λ _, z))
  (at level 100, z at level 200, only parsing, right associativity)
  : py_scope.
Local Open Scope py_scope.

Definition raise {A} (e : exn) : M A := λ w, (Raised e, w).

Definition out_of_fuel {A} : M A := λ w, (Diverged, w).

(** [try: body  except <classes> as e: handler e]. *)
Definition try_except {A} (body : M A) (catches : exn → bool)
    (handler : exn → M A) : M A := λ w,
  match body w with
  | (Raised e, w') => if catches e then handler e w' else (Raised e, w')
  | r => r
  end.

Definition any_exception (e : exn) : bool := true.

(** A block of statements either falls through to the next statement or
    leaves the function with a value. *)
Inductive flow (R : Type) :=
  | Next
  | Return (r : R).
Arguments Next {R}.
Arguments Return {R} r.

Abbreviation stmt R := (M (flow R)).

Definition pass {R} : stmt R := ret Next.
Definition return_ {R} (r : R) : stmt R := ret (Return r).
Definition exec {R A} (m : M A) : stmt R := m;; ret Next.

Definition seq {R} (s1 s2 : stmt R) : stmt R :=
  f ← s1; match f with Next => s2 | Return r => ret (Return r) end.

(** The last statement of a function body always returns. *)
Definition seq_ret {R} (s : stmt R) (k : M R) : M R :=
  f ← s; match f with Next => k | Return r => ret r end.

Notation "s1 ;;; s2" := (seq s1 s2)
  (at level 100, right associativity) : py_scope.
Notation "s ;;> k" := (seq_ret s k)
  (at level 110, k at level 200, right associativity) : py_scope.

(** ** Builtins: [str.strip], [int], [' '.join], [in] *)

(** Whitespace removed by [str.strip()], within ASCII. *)
Definition is_space (c : ascii) : bool :=
  let n := nat_of_ascii c in
  ((9 <=? n)%nat && (n <=? 13)%nat) || ((28 <=? n)%nat && (n <=? 32)%nat).

Fixpoint lstrip (cs : list ascii) : list ascii :=
  match cs with
  | c :: cs' => if is_space c then lstrip cs' else cs
  | [] => []
  end.

Definition strip (s : string) : string :=
  string_of_list_ascii
    (rev (lstrip (rev (lstrip (list_ascii_of_string s))))).

Definition digit_val (c : ascii) : option Z :=
  let n := nat_of_ascii c in
  if (48 <=? n)%nat && (n <=? 57)%nat then Some (Z.of_nat n - 48) else None.

(** Decimal digits, single underscores allowed between two digits. *)
Fixpoint int_digits (acc : Z) (after_digit : bool) (cs : list ascii)
    : option Z :=
  match cs with
  | [] => if after_digit then Some acc else None
  | c :: cs' =>
      match digit_val c with
      | Some d => int_digits (10 * acc + d) true cs'
      | None =>
          if Ascii.eqb c "_" && after_digit
          then int_digits acc false cs'
          else None
      end
  end.

(** [int(s)] for an ASCII decimal literal; [None] stands for ValueError. *)
Definition py_int (s : string) : option Z :=
  match list_ascii_of_string (strip s) with
  | c :: cs =>
      if Ascii.eqb c "-" then Z.opp <$> int_digits 0 false cs
      else if Ascii.eqb c "+" then int_digits 0 false cs
      else int_digits 0 false (c :: cs)
  | [] => None
  end.

Fixpoint join (sep : string) (parts : list string) : string :=
  match parts with
  | [] => EmptyString
  | [p] => p
  | p :: ps => p +:+ sep +:+ join sep ps
  end.

(** [needle in hay] on strings. *)
Fixpoint contains (needle hay : string) : bool :=
  String.prefix needle hay ||
  match hay with
  | EmptyString => false
  | String _ hay' => contains needle hay'
  end.

(** ** Primitive interactions with the world

    Each primitive stands for one library call of the source and fails
    the way the manager's handlers expect: reading and parsing the PID
    file, looking a process up, signalling it, calling the endpoint and
    spawning can fail.  Three things are taken to succeed: writing the
    activity log, writing the PID file, and deleting a PID file that
    exists; and [os.kill] takes any integer as a PID.  The module
    [Faulty] below lifts these four assumptions. *)

Definition emit (ev : Event) : M unit := λ w, (Val tt, record ev w).

(** [time.time()]. *)
Definition time_time : M Z := λ w, (Val (clock w), w).

(** [time.sleep(ms / 1000)]. *)
Definition sleep (ms : Z) : M unit := λ w,
  (Val tt, record (EvSleep ms) (advance ms w)).

(** [PID_FILE.exists()]. *)
Definition pid_file_exists : M bool := λ w,
  (Val (match pid_file w with Some _ => true | None => false end), w).

(** [PID_FILE.read_text()]. *)
Definition read_text : M string := λ w,
  match pid_file w with
  | Some (Readable text) => (Val text, w)
  | Some Unreadable => (Raised OSError, w)
  | None => (Raised FileNotFoundError, w)
  end.

(** [int(text.strip())]. *)
Definition int_of_text (text : string) : M Z :=
  match py_int (strip text) with
  | Some n => ret n
  | None => raise ValueError
  end.

(** [PID_FILE.write_text(text)]. *)
Definition write_text (text : string) : M unit := λ w,
  (Val tt, record (EvWritePid text) (set_pid_file (Some (Readable text)) w)).

(** [PID_FILE.unlink()]. *)
Definition unlink : M unit := λ w,
  match pid_file w with
  | Some _ => (Val tt, record EvUnlinkPid (set_pid_file None w))
  | None => (Raised FileNotFoundError, w)
  end.

(** [psutil.pid_exists(pid)]. *)
Definition pid_exists (pid : Z) : M bool := λ w,
  (Val (match procs w !! pid with Some _ => true | None => false end), w).

(** [psutil.Process(pid).cmdline()]. *)
Definition proc_cmdline (pid : Z) : M (list string) := λ w,
  match procs w !! pid with
  | Some p =>
      match cmdline p with
      | Cmdline argv => (Val argv, w)
      | CmdNoSuchProcess => (Raised NoSuchProcess, w)
      | CmdAccessDenied => (Raised AccessDenied, w)
      end
  | None => (Raised NoSuchProcess, w)
  end.

(** [os.kill(pid, sig)].  A process that honours SIGTERM is gone by the
    time the caller looks again; SIGKILL always removes it. *)
Definition os_kill (pid : Z) (sig : Signal) : M unit := λ w,
  let w1 := record (EvKill pid sig) w in
  match procs w !! pid with
  | None => (Raised ProcessLookupError, w1)
  | Some p =>
      if signalable p then
        match sig with
        | SIGTERM =>
            if dies_on_term p
            then (Val tt, set_procs (delete pid (procs w)) w1)
            else (Val tt, w1)
        | SIGKILL => (Val tt, set_procs (delete pid (procs w)) w1)
        end
      else (Raised PermissionError, w1)
  end.

(** [requests.get(f"{SERVICE_URL}/health", timeout=...)]: the next answer
    of the endpoint; a refused connection once the script is exhausted. *)
Definition requests_get (timeout : Z) : M Response := λ w,
  let o := match health w with o :: _ => o | [] => connection_refused end in
  let w1 :=
    record (EvHealthGet timeout o)
      (advance (Z.of_N (took o)) (set_health (tail (health w)) w)) in
  match reply o with
  | Some r => (Val r, w1)
  | None => (Raised RequestException, w1)
  end.

(** [response.json()]. *)
Definition json (r : Response) : M pyval :=
  match json_body r with
  | Some v => ret v
  | None => raise JSONDecodeError
  end.

(** [data.get(key)]: only a dict has the method. *)
Definition data_get (data : pyval) (key : string) : M pyval :=
  match data with
  | PDict d => ret (default PNone (assoc_get key d))
  | _ => raise AttributeError
  end.

Definition service_argv (w : World) : list string :=
  [sys_executable w; SERVICE_DIR w +:+ "/tts_service.py";
   "--host"; "127.0.0.1"; "--port"; "8000"].

(** [subprocess.Popen([...], start_new_session=True)], giving
    [process.pid].  [spawn_result] describes one spawn and is used up by
    it; the new process answers signals. *)
Definition popen : M Z := λ w,
  let argv := service_argv w in
  let w1 := record (EvSpawn argv (spawn_result w)) w in
  match spawn_result w with
  | Some pid =>
      (Val pid,
       set_spawn_result None
         (set_procs (<[pid := {| cmdline := Cmdline argv; signalable := true;
                                 dies_on_term := true |}]> (procs w)) w1))
  | None => (Raised OSError, w1)
  end.

(** ** The manager's functions *)

(** [datetime.now().strftime(...)]: the clock reading stands for the
    formatted date. *)
Definition strftime (t : Z) : string := pretty t.

Definition log (message : string) : M unit :=
  now ← time_time;
  let timestamp := strftime now in
  emit (EvPrint ("[" +:+ timestamp +:+ "] " +:+ message));;
  emit (EvLogAppend ("[" +:+ timestamp +:+ "] " +:+ message)).

Definition catches_psutil (e : exn) : bool :=
  match e with NoSuchProcess | AccessDenied => true | _ => false end.

Definition catches_value_io (e : exn) : bool :=
  is_ValueError e || is_OSError e.

Definition catches_lookup (e : exn) : bool :=
  match e with ProcessLookupError => true | _ => false end.

Definition is_service_running : M bool :=
  (found ← pid_file_exists;
   if found then
     try_except
       (text ← read_text;
        pid ← int_of_text text;
        (alive ← pid_exists pid;
         if alive then
           try_except
             (argv ← proc_cmdline pid;
              if contains "tts_service.py" (join " " argv) then
                try_except
                  (response ← requests_get 2000;
                   if status_code response =? 200
                   then return_ true else pass)
                  any_exception (λ _, return_ false)
              else pass)
             catches_psutil (λ _, pass)
         else pass) ;;;
        exec unlink)
       catches_value_io (λ _, exec unlink)
   else pass) ;;;
  try_except
    (response ← requests_get 1000;
     if status_code response =? 200 then
       exec (log "Service is running (started externally)") ;;;
       return_ true
     else pass)
    any_exception (λ _, pass) ;;>
  ret false.

Fixpoint wait_loop (fuel : nat) (start_time timeout : Z) : stmt bool :=
  match fuel with
  | O => out_of_fuel
  | S fuel' =>
      now ← time_time;
      if now - start_time <? timeout then
        try_except
          (response ← requests_get 1000;
           if status_code response =? 200 then
             data ← json response;
             loaded ← data_get data "model_loaded";
             if truthy loaded then return_ true else pass
           else pass)
          any_exception (λ _, pass) ;;;
        exec (sleep 500) ;;;
        wait_loop fuel' start_time timeout
      else pass
  end.

(** Every turn of the loop sleeps 500 ms, so [timeout / 500 + 2] tests of
    the loop condition are never exceeded ([wait_for_service_total]). *)
Definition wait_fuel (timeout : Z) : nat := Z.to_nat (timeout / 500) + 2.

(** [timeout] is in milliseconds: the default of the source is 30000. *)
Definition wait_for_service (timeout : Z) : M bool :=
  start_time ← time_time;
  (wait_loop (wait_fuel timeout) start_time timeout ;;> ret false).

Definition start_service : M bool :=
  (running ← is_service_running;
   if running then
     exec (log "Service is already running") ;;;
     return_ true
   else pass) ;;;
  exec (log "Starting ChatterBox TTS service...") ;;;
  (* LOG_FILE.parent.mkdir(...); open(LOG_FILE, 'a'), open(ERROR_LOG, 'a') *)
  exec (emit EvOpenLogs) ;;>
  (pid ← popen;
   write_text (pretty pid);;
   log ("Service started with PID " +:+ pretty pid);;
   log "Waiting for service to be ready...";;
   ready ← wait_for_service 30000;
   if ready then
     log "✅ ChatterBox TTS service is ready!";;
     ret true
   else
     log "⚠️ Service started but not responsive yet";;
     ret false).

Definition stop_service : M bool :=
  (found ← pid_file_exists;
   if negb found then
     exec (log "No PID file found") ;;;
     return_ false
   else pass) ;;>
  try_except
    (text ← read_text;
     pid ← int_of_text text;
     (exec (log ("Stopping service with PID " +:+ pretty pid +:+ "...")) ;;;
      try_except
        (exec (os_kill pid SIGTERM) ;;;
         exec (sleep 2000))
        catches_lookup
        (λ _, exec (log "Process already stopped") ;;;
              exec unlink ;;;
              return_ true) ;;;
      (alive ← pid_exists pid;
       if alive then
         try_except
           (exec (os_kill pid SIGKILL) ;;;
            exec (sleep 1000))
           catches_lookup (λ _, pass)
       else pass) ;;;
      exec unlink ;;;
      exec (log "Service stopped") ;;>
      ret true))
    catches_value_io
    (λ e, log ("Error stopping service: " +:+ exn_str e);;
          ret false).

Definition restart_service : M bool :=
  log "Restarting service...";;
  stop_service;;
  sleep 2000;;
  start_service.

Definition status : M unit :=
  running ← is_service_running;
  if running then
    found ← pid_file_exists;
    (if found then
       text ← read_text;
       emit (EvPrint ("✅ ChatterBox TTS service is running (PID: "
                      +:+ strip text +:+ ")"))
     else
       emit (EvPrint "✅ ChatterBox TTS service is running (external)"));;
    try_except
      (response ← requests_get 2000;
       data ← json response;
       loaded ← data_get data "model_loaded";
       emit (EvPrintField "   Model loaded: " loaded);;
       state ← data_get data "status";
       emit (EvPrintField "   Status: " state))
      any_exception (λ _, ret tt)
  else
    emit (EvPrint "❌ ChatterBox TTS service is not running").

Definition ensure_running : M bool :=
  (running ← is_service_running;
   if negb running then
     started ← start_service;
     return_ started
   else pass) ;;>
  ret true.

(** ** Vocabulary of the statements *)

(** The PID the record holds, when it can be read and parsed. *)
Definition persisted_pid (w : World) : option Z :=
  match pid_file w with
  | Some (Readable text) => py_int (strip text)
  | _ => None
  end.

(** The process [pid] is alive and its command line names the service. *)
Definition is_ours (w : World) (pid : Z) : Prop :=
  ∃ p argv, procs w !! pid = Some p ∧ cmdline p = Cmdline argv ∧
            contains "tts_service.py" (join " " argv) = true.

(** The answer the next [GET /health] will get. *)
Definition next_health (w : World) : HttpOutcome :=
  match health w with o :: _ => o | [] => connection_refused end.

(** The call was answered, with HTTP 200. *)
Definition answers_200 (o : HttpOutcome) : bool :=
  match reply o with
  | Some r => status_code r =? 200
  | None => false
  end.

(** The events an operation added, given the worlds before and after. *)
Definition added (w w' : World) (evs : list Event) : Prop :=
  trace w' = trace w ++ evs.

Definition is_spawn (ev : Event) : bool :=
  match ev with EvSpawn _ _ => true | _ => false end.

Definition is_write_pid (ev : Event) : bool :=
  match ev with EvWritePid _ => true | _ => false end.

(** The test [wait_for_service] applies to one answer: HTTP 200, a JSON
    object as body, and a true value under ["model_loaded"]. *)
Definition model_ready (o : HttpOutcome) : bool :=
  match reply o with
  | Some r =>
      (status_code r =? 200) &&
      match json_body r with
      | Some (PDict d) => truthy (default PNone (assoc_get "model_loaded" d))
      | _ => false
      end
  | None => false
  end.

(** The [k]-th answer still to come (from 0). *)
Definition nth_health (hs : list HttpOutcome) (k : nat) : HttpOutcome :=
  nth k hs connection_refused.

(** Milliseconds between the start of the polling loop and its [k]-th
    poll, when no earlier poll ended the loop: each earlier poll took its
    own time and was followed by a 500 ms sleep. *)
Fixpoint poll_start (hs : list HttpOutcome) (k : nat) : Z :=
  match k with
  | O => 0
  | S k' =>
      Z.of_N (took (nth_health hs 0)) + 500 + poll_start (tail hs) k'
  end.

(** Shape of the events of a polling loop: polls one second of timeout
    each, any two of them separated by one sleep of 500 ms. *)
Inductive polling : list Event → Prop :=
  | polling_over : polling []
  | polling_hit o : polling [EvHealthGet 1000 o]
  | polling_miss o evs :
      polling evs → polling (EvHealthGet 1000 o :: EvSleep 500 :: evs).

Definition is_get (ev : Event) : bool :=
  match ev with EvHealthGet _ _ => true | _ => false end.

(** Number of polls among some events. *)
Definition polls (evs : list Event) : nat :=
  length (List.filter is_get evs).

(** The world after one [requests.get], and after one [time.sleep]. *)
Definition polled (timeout : Z) (w : World) : World :=
  snd (requests_get timeout w).

Definition slept (ms : Z) (w : World) : World := snd (sleep ms w).

(** The process [pid] is alive but does not pass for the service: its
    command line cannot be read or does not name the script. *)
Definition is_foreign (w : World) (pid : Z) : Prop :=
  ∃ p, procs w !! pid = Some p ∧
       match cmdline p with
       | Cmdline argv => contains "tts_service.py" (join " " argv) = false
       | CmdNoSuchProcess | CmdAccessDenied => True
       end.

Definition is_kill (ev : Event) : bool :=
  match ev with EvKill _ _ => true | _ => false end.


(** Events that leave the PID record, the processes and the clock
    alone. *)
Definition is_report (ev : Event) : bool :=
  match ev with
  | EvPrint _ | EvPrintField _ _ | EvLogAppend _ => true
  | _ => false
  end.

(** ** Scenarios *)

Definition idle_world : World :=
  {| sys_executable := "/usr/bin/python3"; SERVICE_DIR := "/opt/chatterbox";
     pid_file := None; procs := ∅; health := []; spawn_result := None;
     clock := 0; trace := [] |}.

Definition service_proc : Proc :=
  {| cmdline := Cmdline ["/usr/bin/python3"; "/opt/chatterbox/tts_service.py";
                         "--host"; "127.0.0.1"; "--port"; "8000"];
     signalable := true; dies_on_term := true |}.

Definition stubborn_proc : Proc :=
  {| cmdline := cmdline service_proc; signalable := true;
     dies_on_term := false |}.

Definition answer (code : Z) (loaded : bool) : HttpOutcome :=
  {| took := 20;
     reply := Some {| status_code := code;
                      json_body := Some (PDict [("status", PStr "healthy");
                                                ("model_loaded", PBool loaded)]) |} |}.

(** PID 4242 is recorded and the service runs under it. *)
Definition supervised_world (hs : list HttpOutcome) : World :=
  {| sys_executable := "/usr/bin/python3"; SERVICE_DIR := "/opt/chatterbox";
     pid_file := Some (Readable "4242"); procs := {[ 4242 := service_proc ]};
     health := hs; spawn_result := Some 4300; clock := 0; trace := [] |}.

(** PID 4242 is recorded but no such process exists. *)
Definition stale_world (hs : list HttpOutcome) : World :=
  {| sys_executable := "/usr/bin/python3"; SERVICE_DIR := "/opt/chatterbox";
     pid_file := Some (Readable "4242"); procs := ∅;
     health := hs; spawn_result := Some 4300; clock := 0; trace := [] |}.

(** The PID file holds something that is not a number. *)
Definition corrupt_world : World :=
  {| sys_executable := "/usr/bin/python3"; SERVICE_DIR := "/opt/chatterbox";
     pid_file := Some (Readable "abc"); procs := ∅;
     health := []; spawn_result := Some 4300; clock := 0; trace := [] |}.

(** Nothing runs, and the next spawn fails. *)
Definition no_spawn_world : World := idle_world.

(** Nothing runs; the next spawn gives PID 4300. *)
Definition cold_world (hs : list HttpOutcome) : World :=
  {| sys_executable := "/usr/bin/python3"; SERVICE_DIR := "/opt/chatterbox";
     pid_file := None; procs := ∅; health := hs; spawn_result := Some 4300;
     clock := 0; trace := [] |}.

(** PID 4242 is recorded; its process ignores SIGTERM. *)
Definition stubborn_world : World :=
  {| sys_executable := "/usr/bin/python3"; SERVICE_DIR := "/opt/chatterbox";
     pid_file := Some (Readable "4242"); procs := {[ 4242 := stubborn_proc ]};
     health := []; spawn_result := Some 4300; clock := 0; trace := [] |}.

(** PID 4242 is recorded and running; once it is stopped the endpoint
    refuses one connection, then reports the model as loaded. *)
Definition restart_world : World :=
  supervised_world [connection_refused; answer 200 true].

Definition shell_proc : Proc :=
  {| cmdline := Cmdline ["/bin/sh"; "-c"; "sleep 60"];
     signalable := false; dies_on_term := false |}.

(** PID 4242 is recorded but now belongs to somebody else's shell. *)
Definition foreign_world (hs : list HttpOutcome) : World :=
  {| sys_executable := "/usr/bin/python3"; SERVICE_DIR := "/opt/chatterbox";
     pid_file := Some (Readable "4242"); procs := {[ 4242 := shell_proc ]};
     health := hs; spawn_result := Some 4300; clock := 0; trace := [] |}.

(** The PID file exists but cannot be read. *)
Definition unreadable_world (hs : list HttpOutcome) : World :=
  {| sys_executable := "/usr/bin/python3"; SERVICE_DIR := "/opt/chatterbox";
     pid_file := Some Unreadable; procs := ∅;
     health := hs; spawn_result := Some 4300; clock := 0; trace := [] |}.

(** PID 4242 is recorded and runs the service, but as another user:
    signalling it is refused. *)
Definition unowned_proc : Proc :=
  {| cmdline := cmdline service_proc; signalable := false;
     dies_on_term := true |}.

Definition unowned_world : World :=
  {| sys_executable := "/usr/bin/python3"; SERVICE_DIR := "/opt/chatterbox";
     pid_file := Some (Readable "4242"); procs := {[ 4242 := unowned_proc ]};
     health := []; spawn_result := Some 4300; clock := 0; trace := [] |}.

(** ** The manager under further faults

    The primitives above take three things to succeed.  Here they may
    fail as well, and a PID may be too large for [os.kill]; the manager's
    functions are transcribed once more over these primitives, statement
    for statement.  With [no_faults] they are the functions above. *)

Record Faults := {
  (* false: LOG_FILE.parent.mkdir / open(LOG_FILE, 'a') raise OSError *)
  log_writable : bool;
  (* false: PID_FILE.write_text and PID_FILE.unlink are refused *)
  pid_file_writable : bool;
  (* the largest PID os.kill takes (a C int); None: no bound *)
  pid_t_max : option Z
}.

Definition no_faults : Faults :=
  {| log_writable := true; pid_file_writable := true; pid_t_max := None |}.

(** [psutil.pid_exists(pid)] answers false for a negative PID and
    otherwise asks [os.kill(pid, 0)], which overflows on a PID beyond the
    bound. *)
Definition too_large (F : Faults) (pid : Z) : bool :=
  match pid_t_max F with
  | Some m => m <? pid
  | None => false
  end.

(** [os.kill(pid, sig)] overflows on a PID outside the bounds. *)
Definition out_of_range (F : Faults) (pid : Z) : bool :=
  match pid_t_max F with
  | Some m => (m <? pid) || (pid <? - m - 1)
  | None => false
  end.

Module Faulty.
Section WithFaults.

Variable F : Faults.

(** [log]: the line is printed before the log file is opened. *)
Definition log (message : string) : M unit :=
  now ← time_time;
  let timestamp := strftime now in
  emit (EvPrint ("[" +:+ timestamp +:+ "] " +:+ message));;
  if log_writable F
  then emit (EvLogAppend ("[" +:+ timestamp +:+ "] " +:+ message))
  else raise OSError.

(** [PID_FILE.write_text(text)]. *)
Definition write_text (text : string) : M unit :=
  if pid_file_writable F then write_text text else raise PermissionError.

(** [PID_FILE.unlink()]. *)
Definition unlink : M unit :=
  if pid_file_writable F then unlink
  else λ w, match pid_file w with
            | Some _ => (Raised PermissionError, w)
            | None => (Raised FileNotFoundError, w)
            end.

(** [psutil.pid_exists(pid)]: it catches ProcessLookupError and
    PermissionError only. *)
Definition pid_exists (pid : Z) : M bool :=
  if too_large F pid then raise OverflowError else pid_exists pid.

(** [os.kill(pid, sig)]: the overflow is raised before any signal is
    sent. *)
Definition os_kill (pid : Z) (sig : Signal) : M unit :=
  if out_of_range F pid then raise OverflowError else os_kill pid sig.

(** [LOG_FILE.parent.mkdir(...)], [open(LOG_FILE, 'a')],
    [open(ERROR_LOG, 'a')]. *)
Definition open_logs : M unit :=
  if log_writable F then emit EvOpenLogs else raise OSError.

Definition is_service_running : M bool :=
  (found ← pid_file_exists;
   if found then
     try_except
       (text ← read_text;
        pid ← int_of_text text;
        (alive ← pid_exists pid;
         if alive then
           try_except
             (argv ← proc_cmdline pid;
              if contains "tts_service.py" (join " " argv) then
                try_except
                  (response ← requests_get 2000;
                   if status_code response =? 200
                   then return_ true else pass)
                  any_exception (λ _, return_ false)
              else pass)
             catches_psutil (λ _, pass)
         else pass) ;;;
        exec unlink)
       catches_value_io (λ _, exec unlink)
   else pass) ;;;
  try_except
    (response ← requests_get 1000;
     if status_code response =? 200 then
       exec (log "Service is running (started externally)") ;;;
       return_ true
     else pass)
    any_exception (λ _, pass) ;;>
  ret false.

Definition start_service : M bool :=
  (running ← is_service_running;
   if running then
     exec (log "Service is already running") ;;;
     return_ true
   else pass) ;;;
  exec (log "Starting ChatterBox TTS service...") ;;;
  exec open_logs ;;>
  (pid ← popen;
   write_text (pretty pid);;
   log ("Service started with PID " +:+ pretty pid);;
   log "Waiting for service to be ready...";;
   ready ← wait_for_service 30000;
   if ready then
     log "✅ ChatterBox TTS service is ready!";;
     ret true
   else
     log "⚠️ Service started but not responsive yet";;
     ret false).

Definition stop_service : M bool :=
  (found ← pid_file_exists;
   if negb found then
     exec (log "No PID file found") ;;;
     return_ false
   else pass) ;;>
  try_except
    (text ← read_text;
     pid ← int_of_text text;
     (exec (log ("Stopping service with PID " +:+ pretty pid +:+ "...")) ;;;
      try_except
        (exec (os_kill pid SIGTERM) ;;;
         exec (sleep 2000))
        catches_lookup
        (λ _, exec (log "Process already stopped") ;;;
              exec unlink ;;;
              return_ true) ;;;
      (alive ← pid_exists pid;
       if alive then
         try_except
           (exec (os_kill pid SIGKILL) ;;;
            exec (sleep 1000))
           catches_lookup (λ _, pass)
       else pass) ;;;
      exec unlink ;;;
      exec (log "Service stopped") ;;>
      ret true))
    catches_value_io
    (λ e, log ("Error stopping service: " +:+ exn_str e);;
          ret false).

Definition restart_service : M bool :=
  log "Restarting service...";;
  stop_service;;
  sleep 2000;;
  start_service.

Definition status : M unit :=
  running ← is_service_running;
  if running then
    found ← pid_file_exists;
    (if found then
       text ← read_text;
       emit (EvPrint ("✅ ChatterBox TTS service is running (PID: "
                      +:+ strip text +:+ ")"))
     else
       emit (EvPrint "✅ ChatterBox TTS service is running (external)"));;
    try_except
      (response ← requests_get 2000;
       data ← json response;
       loaded ← data_get data "model_loaded";
       emit (EvPrintField "   Model loaded: " loaded);;
       state ← data_get data "status";
       emit (EvPrintField "   Status: " state))
      any_exception (λ _, ret tt)
  else
    emit (EvPrint "❌ ChatterBox TTS service is not running").

Definition ensure_running : M bool :=
  (running ← is_service_running;
   if negb running then
     started ← start_service;
     return_ started
   else pass) ;;>
  ret true.

End WithFaults.
End Faulty.

(** ** Errors that reach the caller *)








(** ** Scenarios with faults *)





Arguments contains : simpl never.
Arguments join : simpl never.
Arguments py_int : simpl never.
Arguments strip : simpl never.
Arguments model_ready : simpl never.
Arguments is_service_running : simpl never.
Arguments wait_for_service : simpl never.
Arguments start_service : simpl never.
Arguments stop_service : simpl never.
Arguments too_large : simpl never.
Arguments out_of_range : simpl never.

(** ** Proof tools *)

Ltac run_prims :=
  unfold log, emit, time_time, sleep, pid_file_exists, read_text, int_of_text,
    write_text, unlink, pid_exists, proc_cmdline, os_kill, requests_get,
    json, data_get, popen, seq, seq_ret, exec, pass, return_, try_except,
    bind, ret, raise, out_of_fuel in *.

Ltac use_facts :=
  repeat match goal with
    | H : ?x = Some _ |- context [?x] => rewrite H
    | H : ?x = None |- context [?x] => rewrite H
    | H : ?x = true |- context [?x] => rewrite H
    | H : ?x = false |- context [?x] => rewrite H
    | H : ?x = Cmdline _ |- context [?x] => rewrite H
    end.

Ltac crunch := repeat (cbn in *; simplify_eq; use_facts; try case_match).

(** Case analysis on the run in the goal, innermost test first. *)
Ltac goal_match :=
  match goal with
  | |- context [match ?x with _ => _ end] =>
      lazymatch x with
      | context [match _ with _ => _ end] => fail
      | _ => destruct x eqn:?
      end
  end.

Ltac run :=
  repeat (cbn;
          first [rewrite lookup_delete_eq | progress use_facts | goal_match]);
  cbn.





(** Closes [∃ w' evs, run = (r, w') ∧ fact w' ∧ added w w' evs ∧ _] up to
    its last conjunct, once the run is evaluated. *)
Ltac close_run :=
  do 2 eexists; split; [reflexivity|]; split; [reflexivity|];
  split; [cbn; rewrite <- ?app_assoc; reflexivity|]; cbn.

Ltac open_world w :=
  let ex := fresh "ex" in let dir := fresh "dir" in
  let pf := fresh "pf" in let ps := fresh "ps" in
  let hs := fresh "hs" in let sp := fresh "sp" in
  let ck := fresh "ck" in let tr := fresh "tr" in
  destruct w as [ex dir pf ps hs sp ck tr].

(** ** The builtins on small inputs *)

Example py_int_plain : py_int "4242" = Some 4242%Z.
Proof. reflexivity. Qed.

Example py_int_padded : py_int "  -12_000 " = Some (-12000)%Z.
Proof. reflexivity. Qed.

Example py_int_garbage : py_int "abc" = None.
Proof. reflexivity. Qed.

Example py_int_of_written_pid : py_int (pretty 4300%Z) = Some 4300%Z.
Proof. reflexivity. Qed.

Example contains_service_script :
  contains "tts_service.py" (join " " (service_argv idle_world)) = true.
Proof. reflexivity. Qed.

Example contains_other_program :
  contains "tts_service.py" (join " " ["/bin/sh"; "-c"; "sleep 60"]) = false.
Proof. reflexivity. Qed.

(** ** [is_service_running] *)

(** The check never raises. *)
Lemma is_service_running_total (w : World) :
  ∃ b w', is_service_running w = (Val b, w').
Proof.
  open_world w. unfold is_service_running. run_prims.
  run; eauto.
Qed.

(** The check leaves the process table, the spawn oracle and the
    configuration alone, and neither spawns nor writes the PID record. *)
Lemma is_service_running_frame (w w' : World) (r : outcome bool) :
  is_service_running w = (r, w') →
  procs w' = procs w ∧ spawn_result w' = spawn_result w ∧
  sys_executable w' = sys_executable w ∧ SERVICE_DIR w' = SERVICE_DIR w ∧
  ∃ evs, added w w' evs ∧
         forallb (λ ev, negb (is_spawn ev || is_write_pid ev)) evs = true.
Proof.
  open_world w. unfold is_service_running, added. run_prims.
  run; intros [= <- <-]; cbn; rewrite <- ?app_assoc; cbn;
    (split_and?; [reflexivity ..|]); eexists; (split; [reflexivity|]);
    reflexivity.
Qed.

(** C9: whenever [is_service_running] returns true, a [GET /health] made
    during that very call was answered with HTTP 200; a live, matching PID
    alone never yields true. *)
Theorem is_service_running_true_needs_200 (w w' : World) :
  is_service_running w = (Val true, w') →
  ∃ evs t o r, added w w' evs ∧ In (EvHealthGet t o) evs ∧
               reply o = Some r ∧ status_code r = 200.
Proof.
  open_world w. unfold is_service_running, added. run_prims.
  run; intros E; simplify_eq; cbn; rewrite <- ?app_assoc; cbn;
    do 4 eexists; (split; [reflexivity|]); cbn;
    rewrite ?Z.eqb_eq in *; eauto 10.
Qed.

Lemma is_service_running_true_needs_200_witness :
  let w := supervised_world [answer 200 true] in
  fst (is_service_running w) = Val true ∧
  ∃ evs t o r, added w (snd (is_service_running w)) evs ∧
               In (EvHealthGet t o) evs ∧
               reply o = Some r ∧ status_code r = 200.
Proof.
  split; [reflexivity|].
  apply (is_service_running_true_needs_200 (supervised_world [answer 200 true])).
  reflexivity.
Defined.

(** The sibling path of C1: when the request itself fails, the check
    answers false and the PID record stays. *)
Lemma failed_request_keeps_pid_record (w : World) (pid : Z) :
  persisted_pid w = Some pid → is_ours w pid →
  reply (next_health w) = None →
  ∃ w', is_service_running w = (Val false, w') ∧ pid_file w' = pid_file w.
Proof.
  open_world w. unfold persisted_pid, is_ours, next_health.
  intros Hp (p & argv & Hl & Hc & Ha) Hr; cbn in *.
  destruct pf as [[text|]|]; try discriminate.
  unfold is_service_running. run_prims.
  destruct hs as [|o hs]; cbn in Hr; run; try congruence;
    eexists; split; reflexivity.
Qed.

(** What happens on the other half of C1: an answer other than 200 sends
    the check to the [unlink] meant for dead and foreign PIDs. *)
Lemma non200_reply_drops_pid_record (w : World) (pid : Z) (r : Response) :
  persisted_pid w = Some pid → is_ours w pid →
  reply (next_health w) = Some r → status_code r ≠ 200 →
  pid_file (snd (is_service_running w)) = None.
Proof.
  open_world w. unfold persisted_pid, is_ours, next_health.
  intros Hp (p & argv & Hl & Hc & Ha) Hr Hs; cbn in *.
  destruct pf as [[text|]|]; try discriminate.
  apply Z.eqb_neq in Hs.
  unfold is_service_running. run_prims.
  destruct hs as [|o hs]; cbn in Hr; simplify_eq; run; reflexivity.
Qed.

(** C1, at the failing input: PID 4242 is recorded, alive and runs
    [tts_service.py]; the endpoint answers 503 and, asked again, 200.  The
    check deletes the PID record and reports the service as running. *)
Theorem non200_reply_clears_pid_record :
  let w := supervised_world [answer 503 false; answer 200 true] in
  persisted_pid w = Some 4242 ∧
  procs w !! 4242 = Some service_proc ∧
  answers_200 (next_health w) = false ∧
  fst (is_service_running w) = Val true ∧
  pid_file (snd (is_service_running w)) = None.
Proof. vm_compute. repeat split; reflexivity. Qed.

(** C2 as stated fails: with a stale PID on record and an endpoint that
    answers 200, the check returns true. *)
Lemma stale_pid_may_report_running :
  ¬ (∀ (w : World) (pid : Z),
       persisted_pid w = Some pid → procs w !! pid = None →
       ∃ w', is_service_running w = (Val false, w') ∧ pid_file w' = None).
Proof.
  intros H.
  destruct (H (stale_world [answer 200 true]) 4242) as (w' & E & _);
    [reflexivity | reflexivity |].
  vm_compute in E. discriminate E.
Qed.

(** C2, amended: a PID on record that no process has is cleared, and the
    check then probes the endpoint once, with a timeout of 1 s: it
    returns true exactly when that probe is answered with HTTP 200. *)
Theorem stale_pid_cleared_then_probed (w : World) (pid : Z) :
  persisted_pid w = Some pid → procs w !! pid = None →
  ∃ w' evs,
    is_service_running w = (Val (answers_200 (next_health w)), w') ∧
    pid_file w' = None ∧ added w w' evs ∧
    List.filter is_get evs = [EvHealthGet 1000 (next_health w)].
Proof.
  open_world w. unfold persisted_pid, next_health, answers_200, added.
  intros Hp Hl; cbn in *.
  destruct pf as [[text|]|]; try discriminate.
  unfold is_service_running. run_prims.
  destruct hs as [|o hs]; run;
    (do 2 eexists; split; [reflexivity|]; split; [reflexivity|]; split;
     [cbn; rewrite <- ?app_assoc; reflexivity|]);
    reflexivity.
Qed.

Lemma stale_pid_cleared_then_probed_witness :
  let w := stale_world [answer 503 false] in
  ∃ w' evs,
    is_service_running w = (Val (answers_200 (next_health w)), w') ∧
    pid_file w' = None ∧ added w w' evs ∧
    List.filter is_get evs = [EvHealthGet 1000 (next_health w)].
Proof.
  apply (stale_pid_cleared_then_probed (stale_world [answer 503 false]) 4242);
    reflexivity.
Defined.

(** ** [stop_service] *)

(** C3, at the failing input: the PID file holds ["abc"].  [stop_service]
    returns false and the file is still there afterwards. *)
Theorem corrupt_pid_record_survives_stop :
  let w := corrupt_world in
  pid_file w = Some (Readable "abc") ∧ persisted_pid w = None ∧
  fst (stop_service w) = Val false ∧
  pid_file (snd (stop_service w)) = Some (Readable "abc").
Proof. vm_compute. repeat split; reflexivity. Qed.

(** The same for every record that cannot be read or parsed. *)
Lemma unparsable_pid_record_survives_stop (w : World) (f : FileData) :
  pid_file w = Some f → persisted_pid w = None →
  ∃ w', stop_service w = (Val false, w') ∧ pid_file w' = Some f.
Proof.
  open_world w. unfold persisted_pid. intros Hf Hp; cbn in *. subst pf.
  unfold stop_service. run_prims.
  destruct f as [text|]; crunch; try congruence; eauto.
Qed.

(** The sibling path of C3: on the same records [is_service_running]
    does delete the file. *)
Lemma unparsable_pid_record_dropped_by_check (w : World) (f : FileData) :
  pid_file w = Some f → persisted_pid w = None →
  pid_file (snd (is_service_running w)) = None.
Proof.
  open_world w. unfold persisted_pid. intros Hf Hp; cbn in *. subst pf.
  unfold is_service_running. run_prims.
  destruct f as [text|]; crunch; try congruence; reflexivity.
Qed.

(** C10: when the recorded PID parses but its process is already gone, so
    that SIGTERM raises ProcessLookupError, [stop_service] deletes the
    PID record and returns true. *)
Theorem stop_on_dead_process_succeeds (w : World) (pid : Z) :
  persisted_pid w = Some pid → procs w !! pid = None →
  ∃ w' evs, stop_service w = (Val true, w') ∧ pid_file w' = None ∧
            added w w' evs ∧ In (EvKill pid SIGTERM) evs.
Proof.
  open_world w. unfold persisted_pid, added. intros Hp Hl; cbn in *.
  destruct pf as [[text|]|]; try discriminate.
  unfold stop_service. run_prims.
  run.
  close_run. eauto 10.
Qed.

Lemma stop_on_dead_process_succeeds_witness :
  ∃ w' evs, stop_service (stale_world []) = (Val true, w') ∧
            pid_file w' = None ∧
            added (stale_world []) w' evs ∧ In (EvKill 4242 SIGTERM) evs.
Proof.
  apply (stop_on_dead_process_succeeds (stale_world []) 4242); reflexivity.
Defined.

(** A signal that is refused (PermissionError) aborts the stop sequence:
    the result is false and the record is kept. *)
Lemma refused_signal_aborts_stop (w : World) (pid : Z) (p : Proc) :
  persisted_pid w = Some pid → procs w !! pid = Some p →
  signalable p = false →
  ∃ w' evs, stop_service w = (Val false, w') ∧ pid_file w' = pid_file w ∧
            added w w' evs.
Proof.
  open_world w. unfold persisted_pid, added. intros Hp Hl Hs; cbn in *.
  destruct pf as [[text|]|]; try discriminate.
  unfold stop_service. run_prims.
  run.
  do 2 eexists; split; [reflexivity|]; split; [reflexivity|].
  cbn; rewrite <- ?app_assoc; reflexivity.
Qed.

(** With signals that are delivered, the sequence runs to its end;
    SIGKILL is sent exactly when the process outlives SIGTERM. *)
Lemma delivered_signals_complete_stop (w : World) (pid : Z) :
  persisted_pid w = Some pid →
  (∀ p, procs w !! pid = Some p → signalable p = true) →
  ∃ w' evs, stop_service w = (Val true, w') ∧ pid_file w' = None ∧
            added w w' evs ∧
            (In (EvKill pid SIGKILL) evs ↔
             ∃ p, procs w !! pid = Some p ∧ dies_on_term p = false).
Proof.
  open_world w. unfold persisted_pid, added. intros Hp Hs; cbn in *.
  destruct pf as [[text|]|]; try discriminate.
  unfold stop_service. run_prims.
  destruct (ps !! pid) as [p|] eqn:Hl.
  - specialize (Hs p eq_refl).
    destruct (dies_on_term p) eqn:Hd; run.
    all: close_run.
    all: split; [| intros (p' & ? & ?); simplify_eq; try congruence; eauto 12].
    all: intros; try (exists p; split; congruence).
    all: repeat match goal with H : _ ∨ _ |- _ => destruct H end;
         try discriminate; try contradiction.
  - run.
    close_run.
    split; [| intros (p' & ? & ?); discriminate].
    intros Hin; repeat destruct Hin as [Hin|Hin]; try discriminate;
      contradiction.
Qed.

(** C5: with a parsable PID on record, [stop_service] always returns;
    its termination sequence runs to its end, with result true, exactly
    when no signal is refused, and then no PID record is left, whether
    SIGTERM was enough or SIGKILL had to follow (SIGKILL is sent exactly
    when the process outlives SIGTERM). *)
Theorem stop_clears_pid_record (w : World) (pid : Z) :
  persisted_pid w = Some pid →
  ∃ b w' evs,
    stop_service w = (Val b, w') ∧ added w w' evs ∧
    (b = true → pid_file w' = None) ∧
    (b = true ↔ ∀ p, procs w !! pid = Some p → signalable p = true) ∧
    (b = true →
     (In (EvKill pid SIGKILL) evs ↔
      ∃ p, procs w !! pid = Some p ∧ dies_on_term p = false)).
Proof.
  intros Hp.
  destruct (procs w !! pid) as [p|] eqn:Hl;
    [destruct (signalable p) eqn:Hs|].
  - destruct (delivered_signals_complete_stop w pid Hp)
      as (w' & evs & E & Hf & Ha & Hk); [intros p' Hp'; congruence|].
    rewrite Hl in Hk.
    exists true, w', evs. split_and?; try done.
    split; [intros _ p' [= <-]; exact Hs | done].
  - destruct (refused_signal_aborts_stop w pid p Hp Hl Hs)
      as (w' & evs & E & _ & Ha).
    exists false, w', evs. split_and?; try done.
    split; [done|]. intros H. specialize (H p eq_refl). congruence.
  - destruct (delivered_signals_complete_stop w pid Hp)
      as (w' & evs & E & Hf & Ha & Hk); [intros p' Hp'; congruence|].
    rewrite Hl in Hk.
    exists true, w', evs. split_and?; try done.
Qed.

Lemma stop_clears_pid_record_witness :
  ∃ b w' evs,
    stop_service stubborn_world = (Val b, w') ∧
    added stubborn_world w' evs ∧
    (b = true → pid_file w' = None) ∧
    (b = true ↔
     ∀ p, procs stubborn_world !! 4242 = Some p → signalable p = true) ∧
    (b = true →
     (In (EvKill 4242 SIGKILL) evs ↔
      ∃ p, procs stubborn_world !! 4242 = Some p ∧ dies_on_term p = false)).
Proof.
  apply (stop_clears_pid_record stubborn_world 4242). reflexivity.
Defined.

(** ** [wait_for_service] *)

(** One turn of the loop, with the body of the [try] evaluated. *)
Lemma wait_loop_unfold (fuel : nat) (start timeout : Z) (w : World) :
  wait_loop (S fuel) start timeout w =
  if clock w - start <? timeout then
    if model_ready (next_health w)
    then (Val (Return true), polled 1000 w)
    else wait_loop fuel start timeout (slept 500 (polled 1000 w))
  else (Val Next, w).
Proof.
  open_world w. cbn [wait_loop].
  unfold model_ready, next_health, polled, slept. run_prims.
  destruct hs as [|o hs]; run; reflexivity.
Qed.

Lemma poll_start_nonneg (hs : list HttpOutcome) (k : nat) :
  0 ≤ poll_start hs k.
Proof.
  revert hs; induction k as [|k IH]; intros hs; cbn [poll_start]; [lia|].
  specialize (IH (tail hs)). lia.
Qed.

Lemma nth_health_tail (hs : list HttpOutcome) (k : nat) :
  nth_health (tail hs) k = nth_health hs (S k).
Proof. unfold nth_health. destruct hs; [destruct k|]; reflexivity. Qed.

Lemma nth_health_0 (w : World) : nth_health (health w) 0 = next_health w.
Proof. unfold nth_health, next_health. destruct (health w); reflexivity. Qed.

Lemma polled_facts (t : Z) (w : World) :
  trace (polled t w) = trace w ++ [EvHealthGet t (next_health w)] ∧
  clock (polled t w) = clock w + Z.of_N (took (next_health w)) ∧
  health (polled t w) = tail (health w) ∧
  pid_file (polled t w) = pid_file w ∧ procs (polled t w) = procs w.
Proof.
  unfold polled, requests_get, next_health.
  destruct (reply _); cbn; repeat split; reflexivity.
Qed.

Lemma slept_facts (ms : Z) (w : World) :
  trace (slept ms w) = trace w ++ [EvSleep ms] ∧
  clock (slept ms w) = clock w + ms ∧ health (slept ms w) = health w ∧
  pid_file (slept ms w) = pid_file w ∧ procs (slept ms w) = procs w.
Proof. cbn; repeat split; reflexivity. Qed.

(** The loop with enough fuel: it ends, with [Return true] exactly when
    one of the polls it can still issue before the deadline finds the
    model ready, and with [Next] only once the deadline has passed. *)
Lemma wait_loop_spec (fuel : nat) (start timeout : Z) (w : World) :
  (1 ≤ fuel)%nat →
  timeout - (clock w - start) ≤ 500 * (Z.of_nat fuel - 1) →
  ∃ f w' evs,
    wait_loop fuel start timeout w = (Val f, w') ∧
    added w w' evs ∧ polling evs ∧
    pid_file w' = pid_file w ∧ procs w' = procs w ∧
    (f = Return true ∨ f = Next ∧ timeout ≤ clock w' - start) ∧
    (f = Return true ↔
     ∃ k, clock w - start + poll_start (health w) k < timeout ∧
          model_ready (nth_health (health w) k) = true) ∧
    (polls evs = 0%nat ∨
     clock w - start + 500 * (Z.of_nat (polls evs) - 1) < timeout).
Proof.
  revert w. induction fuel as [|fuel IH]; intros w Hfuel Htime; [lia|].
  rewrite wait_loop_unfold.
  destruct (clock w - start <? timeout) eqn:Hlt;
    [apply Z.ltb_lt in Hlt | apply Z.ltb_ge in Hlt].
  - destruct (polled_facts 1000 w) as (Pt & Pc & Ph & Pf & Pp).
    destruct (model_ready (next_health w)) eqn:Hready.
    + exists (Return true), (polled 1000 w), [EvHealthGet 1000 (next_health w)].
      split_and?; try done; [apply polling_hit | by left | |].
      2: { right. change (polls [EvHealthGet 1000 (next_health w)]) with 1%nat. lia. }
      split; [intros _ | done].
      exists 0%nat. rewrite nth_health_0. cbn [poll_start]. split; [lia|done].
    + set (w2 := slept 500 (polled 1000 w)).
      destruct (slept_facts 500 (polled 1000 w)) as (St & Sc & Sh & Sf & Sp).
      fold w2 in St, Sc, Sh, Sf, Sp.
      destruct (IH w2) as (f & w' & evs & E & Ha & Hpoll & Hpf & Hps &
                           Hf & Hiff & Hbound); [lia | lia |].
      exists f, w', (EvHealthGet 1000 (next_health w) :: EvSleep 500 :: evs).
      split_and?.
      * exact E.
      * unfold added in *. rewrite Ha, St, Pt, <- !app_assoc. reflexivity.
      * by apply polling_miss.
      * congruence.
      * congruence.
      * exact Hf.
      * rewrite Hiff. rewrite Sh, Ph, Sc, Pc.
        split.
        -- intros (k & Hk & Hr). exists (S k).
           rewrite <- nth_health_tail. split; [|exact Hr].
           cbn [poll_start]. rewrite nth_health_0. lia.
        -- intros ([|k] & Hk & Hr).
           ++ rewrite nth_health_0 in Hr. congruence.
           ++ exists k. rewrite nth_health_tail. split; [|exact Hr].
              cbn [poll_start] in Hk. rewrite nth_health_0 in Hk. lia.
      * right.
        change (polls (EvHealthGet 1000 (next_health w) :: EvSleep 500 :: evs))
          with (S (polls evs)).
        rewrite Sc, Pc in Hbound. destruct Hbound as [-> | Hb]; lia.
  - exists Next, w, [].
    split_and?; try done.
    + unfold added. by rewrite app_nil_r.
    + apply polling_over.
    + right. split; [done | lia].
    + split; [done|]. intros (k & Hk & _).
      pose proof (poll_start_nonneg (health w) k). lia.
    + by left.
Qed.

Lemma wait_fuel_enough (timeout : Z) :
  (1 ≤ wait_fuel timeout)%nat ∧
  timeout ≤ 500 * (Z.of_nat (wait_fuel timeout) - 1).
Proof.
  unfold wait_fuel. split; [lia|].
  destruct (Z.le_gt_cases 0 timeout) as [Hpos | Hneg].
  - assert (0 ≤ timeout / 500) by (apply Z.div_pos; lia).
    pose proof (Z.mul_succ_div_gt timeout 500 ltac:(lia)). lia.
  - lia.
Qed.

(** [wait_for_service] always returns: the fuel of its loop is never
    used up.  It returns true exactly when a poll issued before the
    deadline finds the model ready, and false only after the deadline. *)
Lemma wait_for_service_spec (timeout : Z) (w : World) :
  ∃ b w' evs,
    wait_for_service timeout w = (Val b, w') ∧
    added w w' evs ∧ polling evs ∧
    pid_file w' = pid_file w ∧ procs w' = procs w ∧
    (b = false → timeout ≤ clock w' - clock w) ∧
    (b = true ↔
     ∃ k, poll_start (health w) k < timeout ∧
          model_ready (nth_health (health w) k) = true) ∧
    (polls evs = 0%nat ∨ 500 * (Z.of_nat (polls evs) - 1) < timeout).
Proof.
  destruct (wait_fuel_enough timeout) as [Hf1 Hf2].
  destruct (wait_loop_spec (wait_fuel timeout) (clock w) timeout w)
    as (f & w' & evs & E & Ha & Hp & Hpf & Hps & Hf & Hiff & Hb);
    [exact Hf1 | lia |].
  unfold wait_for_service, seq_ret, bind, time_time, ret.
  rewrite E.
  replace (clock w - clock w + 500 * (Z.of_nat (polls evs) - 1))
    with (500 * (Z.of_nat (polls evs) - 1)) in Hb by lia.
  destruct Hf as [-> | [-> Hlate]].
  - exists true, w', evs. split_and?; try done.
    split; [intros _ | done].
    destruct Hiff as [Hk _]. destruct (Hk eq_refl) as (k & Hlt & Hr).
    exists k. split; [lia | exact Hr].
  - exists false, w', evs. split_and?; try done.
    split; [done|]. intros (k & Hlt & Hr).
    destruct Hiff as [_ Hk]. discriminate Hk. exists k. split; [lia | exact Hr].
Qed.


(** ** [start_service] *)

(** C6: when the service is not running and the spawn succeeds,
    [start_service] polls the health endpoint (one second of timeout per
    call) with one sleep of 500 ms between two polls, issues no poll once
    30 s have passed since it began to wait, hence at most 60 polls, and
    returns true exactly when one of the polls issued within the 30 s is
    answered with HTTP 200 and a true [model_loaded]; otherwise it returns
    false, and not before the 30 s are over. *)
Theorem start_polls_until_ready (w w1 : World) (pid : Z) :
  is_service_running w = (Val false, w1) →
  spawn_result w = Some pid →
  ∃ b w' pre evs post,
    start_service w = (Val b, w') ∧
    added w1 w' (pre ++ evs ++ post) ∧
    polls pre = 0%nat ∧ polls post = 0%nat ∧
    polling evs ∧ (polls evs ≤ 60)%nat ∧
    (b = true ↔
     ∃ k, poll_start (health w1) k < 30000 ∧
          model_ready (nth_health (health w1) k) = true) ∧
    (b = false → 30000 ≤ clock w' - clock w1).
Proof.
  intros Hrun Hsp.
  destruct (is_service_running_frame _ _ _ Hrun) as (_ & Hspawn & _).
  rewrite Hsp in Hspawn.
  unfold start_service. run_prims. rewrite Hrun. cbn. rewrite Hspawn. cbn.
  match goal with
  | |- context [wait_for_service 30000 ?W] =>
      remember W as w2 eqn:Ew2;
      destruct (wait_for_service_spec 30000 w2)
        as (b & w3 & evs & E & Ha & Hp & _ & _ & Hlate & Hiff & Hb)
  end.
  assert (∃ pre, added w1 w2 pre ∧ polls pre = 0%nat) as (pre & Hpre & Hpre0).
  { subst w2. unfold added. cbn. rewrite <- ?app_assoc. cbn.
    eexists; split; reflexivity. }
  assert (health w2 = health w1 ∧ clock w2 = clock w1) as [Hh Hc]
    by (subst w2; split; reflexivity).
  rewrite Hh in Hiff. rewrite Hc in Hlate.
  assert (polls evs ≤ 60)%nat as Hcount by lia.
  clear Ew2. rewrite E. unfold added in *.
  destruct b; cbn;
    (eexists _, _, pre, evs, _; split; [reflexivity|]; split;
     [cbn; rewrite Ha, Hpre, <- ?app_assoc; reflexivity|]);
    (split; [exact Hpre0|]); (split; [reflexivity|]);
    (split; [exact Hp|]); (split; [exact Hcount|]);
    (split; [exact Hiff|]); cbn; [discriminate | exact Hlate].
Qed.

Lemma start_polls_until_ready_witness :
  let w := cold_world [connection_refused; answer 200 false;
                       answer 200 true] in
  ∃ b w' pre evs post,
    start_service w = (Val b, w') ∧
    added (snd (is_service_running w)) w' (pre ++ evs ++ post) ∧
    polls pre = 0%nat ∧ polls post = 0%nat ∧
    polling evs ∧ (polls evs ≤ 60)%nat ∧
    (b = true ↔
     ∃ k, poll_start (health (snd (is_service_running w))) k < 30000 ∧
          model_ready (nth_health (health (snd (is_service_running w))) k)
          = true) ∧
    (b = false → 30000 ≤ clock w' - clock (snd (is_service_running w))).
Proof.
  apply (start_polls_until_ready
           (cold_world [connection_refused; answer 200 false;
                        answer 200 true]) _ 4300);
    reflexivity.
Defined.

(** [start_service] returns a boolean, or re-raises the error of a
    failed spawn; in both cases it only adds events. *)
Lemma start_service_cases (w : World) :
  ∃ r w' evs,
    start_service w = (r, w') ∧ added w w' evs ∧
    ((∃ b, r = Val b) ∨ (r = Raised OSError ∧ spawn_result w = None)).
Proof.
  destruct (is_service_running_total w) as (b & w1 & Hrun).
  destruct (is_service_running_frame _ _ _ Hrun)
    as (_ & Hspawn & _ & _ & evs1 & Hevs1 & _).
  unfold added in *.
  unfold start_service. run_prims. rewrite Hrun.
  destruct b; cbn.
  - do 3 eexists; split; [reflexivity|]; split; [|eauto].
    cbn. rewrite Hevs1, <- ?app_assoc. reflexivity.
  - rewrite Hspawn. destruct (spawn_result w) as [pid|]; cbn.
    + match goal with
      | |- context [wait_for_service 30000 ?W] =>
          remember W as w2 eqn:Ew2;
          destruct (wait_for_service_spec 30000 w2)
            as (b & w3 & evs & E & Ha & _)
      end.
      assert (∃ pre, trace w2 = trace w1 ++ pre) as (pre & Hpre).
      { subst w2. cbn. rewrite <- ?app_assoc. cbn. eexists; reflexivity. }
      clear Ew2. rewrite E. unfold added in Ha.
      destruct b; cbn;
        (do 3 eexists; split; [reflexivity|]; split; [|eauto]);
        cbn; rewrite Ha, Hpre, Hevs1, <- ?app_assoc; reflexivity.
    + do 3 eexists; split; [reflexivity|]; split; [|eauto].
      cbn. rewrite Hevs1, <- ?app_assoc. reflexivity.
Qed.

(** [stop_service] always returns a boolean; it spawns nothing and
    leaves the spawn oracle alone. *)
Lemma stop_service_cases (w : World) :
  ∃ b w' evs,
    stop_service w = (Val b, w') ∧ added w w' evs ∧
    forallb (λ ev, negb (is_spawn ev)) evs = true ∧
    spawn_result w' = spawn_result w.
Proof.
  open_world w. unfold stop_service, added. run_prims.
  run;
    (do 3 eexists; split; [reflexivity|]; split;
     [cbn; rewrite <- ?app_assoc; reflexivity|]; split; reflexivity).
Qed.

(** ** [ensure_running] *)

(** C7: when [is_service_running] reports the service as running,
    [ensure_running] returns true and does nothing beyond that check: no
    process is spawned and the PID record is not written. *)
Theorem ensure_running_noop_when_running (w w1 : World) :
  is_service_running w = (Val true, w1) →
  ensure_running w = (Val true, w1) ∧
  ∃ evs, added w w1 evs ∧
         forallb (λ ev, negb (is_spawn ev || is_write_pid ev)) evs = true.
Proof.
  intros Hrun. split.
  - unfold ensure_running. run_prims. rewrite Hrun. reflexivity.
  - by destruct (is_service_running_frame _ _ _ Hrun) as (_ & _ & _ & _ & H).
Qed.

Lemma ensure_running_noop_when_running_witness :
  let w := supervised_world [answer 200 true] in
  ensure_running w = (Val true, snd (is_service_running w)) ∧
  ∃ evs, added w (snd (is_service_running w)) evs ∧
         forallb (λ ev, negb (is_spawn ev || is_write_pid ev)) evs = true.
Proof.
  apply (ensure_running_noop_when_running
           (supervised_world [answer 200 true])).
  reflexivity.
Defined.

(** The same on [start_service] itself: already running, it only logs. *)
Lemma start_service_noop_when_running (w w1 : World) :
  is_service_running w = (Val true, w1) →
  ∃ w' evs, start_service w = (Val true, w') ∧ added w1 w' evs ∧
            pid_file w' = pid_file w1 ∧
            forallb (λ ev, negb (is_spawn ev || is_write_pid ev)) evs = true.
Proof.
  intros Hrun. unfold start_service, added. run_prims. rewrite Hrun. cbn.
  do 2 eexists; split; [reflexivity|]; split;
    [cbn; rewrite <- ?app_assoc; reflexivity|]; split; reflexivity.
Qed.

(** ** [restart_service] *)

Lemma spawn_after_prefix (A B pre post : list Event) (x : Event) :
  forallb (λ ev, negb (is_spawn ev)) A = true → is_spawn x = true →
  A ++ B = pre ++ x :: post → ∃ rest, pre = A ++ rest.
Proof.
  revert pre. induction A as [|a A IH]; intros pre HA Hx Heq.
  - by exists pre.
  - cbn in HA. apply andb_prop in HA as [Ha HA].
    destruct pre as [|p pre]; cbn in Heq; injection Heq as -> Heq.
    + rewrite Hx in Ha. discriminate.
    + destruct (IH pre HA Hx Heq) as (rest & ->). by exists rest.
Qed.

(** C8: in every run of [restart_service], whatever comes before a spawn
    attempt starts with the opening log line, then the whole of
    [stop_service], which has returned, then the sleep of two seconds. *)
Theorem restart_spawns_after_stop (w w' : World) (r : outcome bool)
    (pre post : list Event) (argv : list string) (child : option Z) :
  restart_service w = (r, w') →
  added w w' (pre ++ EvSpawn argv child :: post) →
  ∃ w0 b w1 log_evs stop_evs rest,
    log "Restarting service..." w = (Val tt, w0) ∧ added w w0 log_evs ∧
    stop_service w0 = (Val b, w1) ∧ added w0 w1 stop_evs ∧
    forallb (λ ev, negb (is_spawn ev)) stop_evs = true ∧
    pre = log_evs ++ stop_evs ++ EvSleep 2000 :: rest.
Proof.
  intros Hres Hadd.
  destruct (log "Restarting service..." w) as [r0 w0] eqn:Hlog.
  assert (r0 = Val tt ∧ ∃ log_evs, added w w0 log_evs ∧
          forallb (λ ev, negb (is_spawn ev)) log_evs = true)
    as (-> & log_evs & Hl & Hnl).
  { unfold log in Hlog. run_prims. cbn in Hlog. injection Hlog as <- <-.
    split; [reflexivity|]. unfold added. cbn. rewrite <- ?app_assoc.
    eexists; split; reflexivity. }
  destruct (stop_service_cases w0) as (b & w1 & stop_evs & Es & Hs & Hns & _).
  destruct (start_service_cases (slept 2000 w1))
    as (r3 & w3 & evs3 & E3 & Ha3 & _).
  unfold restart_service, bind in Hres. rewrite Hlog, Es in Hres.
  cbn in Hres.
  change (record (EvSleep 2000) (advance 2000 w1)) with (slept 2000 w1)
    in Hres.
  rewrite E3 in Hres. injection Hres as <- <-.
  unfold added in *. destruct (slept_facts 2000 w1) as (St & _).
  rewrite Ha3, St, Hs, Hl, <- !app_assoc in Hadd.
  apply app_inv_head in Hadd.
  rewrite (app_assoc stop_evs), (app_assoc log_evs) in Hadd.
  apply spawn_after_prefix in Hadd as (rest & ->); [| |reflexivity].
  - exists w0, b, w1, log_evs, stop_evs, rest.
    split_and?; try done. by rewrite <- !app_assoc.
  - rewrite !forallb_app, Hnl, Hns. reflexivity.
Qed.

Lemma restart_spawns_after_stop_witness :
  let w := restart_world in
  let t := trace (snd (restart_service w)) in
  ∃ w0 b w1 log_evs stop_evs rest,
    log "Restarting service..." w = (Val tt, w0) ∧ added w w0 log_evs ∧
    stop_service w0 = (Val b, w1) ∧ added w0 w1 stop_evs ∧
    forallb (λ ev, negb (is_spawn ev)) stop_evs = true ∧
    take 14 t = log_evs ++ stop_evs ++ EvSleep 2000 :: rest.
Proof.
  apply (restart_spawns_after_stop restart_world
           (snd (restart_service restart_world))
           (fst (restart_service restart_world))
           (take 14 (trace (snd (restart_service restart_world))))
           (drop 15 (trace (snd (restart_service restart_world))))
           (service_argv restart_world) (Some 4300)).
  - apply surjective_pairing.
  - vm_compute. reflexivity.
Defined.

(** ** Errors that escape *)

(** Without faults the fault-aware functions are the plain ones. *)
Lemma no_faults_plain_manager :
  Faulty.is_service_running no_faults = is_service_running ∧
  Faulty.start_service no_faults = start_service ∧
  Faulty.stop_service no_faults = stop_service ∧
  Faulty.restart_service no_faults = restart_service ∧
  Faulty.status no_faults = status ∧
  Faulty.ensure_running no_faults = ensure_running.
Proof. split_and?; reflexivity. Qed.













(** * Further properties of the manager *)

(** ** [is_service_running], path by path *)

(** A recorded PID that is alive but is not the service (its command
    line does not name the script, or cannot be read) is dropped: the 2 s
    request is not made, the process table is left alone, and the check
    answers what the one external probe says. *)
Theorem foreign_pid_record_dropped (w : World) (pid : Z) :
  persisted_pid w = Some pid → is_foreign w pid →
  ∃ w' evs,
    is_service_running w = (Val (answers_200 (next_health w)), w') ∧
    pid_file w' = None ∧ added w w' evs ∧
    List.filter is_get evs = [EvHealthGet 1000 (next_health w)] ∧
    procs w' = procs w.
Proof.
  open_world w. unfold persisted_pid, is_foreign, next_health, answers_200.
  intros Hp (p & Hl & Hc); cbn in *.
  destruct pf as [[text|]|]; try discriminate.
  unfold is_service_running. run_prims.
  destruct hs as [|o hs]; destruct (cmdline p) eqn:Hcmd;
    run; try congruence;
    (do 2 eexists; split; [reflexivity|]; split; [reflexivity|]; split;
     [unfold added; cbn; rewrite <- ?app_assoc; reflexivity|]);
    split; reflexivity.
Qed.

Lemma foreign_pid_record_dropped_witness :
  let w := foreign_world [answer 200 true] in
  ∃ w' evs,
    is_service_running w = (Val (answers_200 (next_health w)), w') ∧
    pid_file w' = None ∧ added w w' evs ∧
    List.filter is_get evs = [EvHealthGet 1000 (next_health w)] ∧
    procs w' = procs w.
Proof.
  apply (foreign_pid_record_dropped (foreign_world [answer 200 true]) 4242);
    [reflexivity|].
  exists shell_proc. split; reflexivity.
Defined.

(** Without a PID file the check is the external probe alone: one
    request with a timeout of 1 s, true exactly on HTTP 200, and no PID
    record is created for a service found that way. *)
Theorem check_without_pid_record (w : World) :
  pid_file w = None →
  ∃ w' evs,
    is_service_running w = (Val (answers_200 (next_health w)), w') ∧
    pid_file w' = None ∧ added w w' evs ∧
    List.filter is_get evs = [EvHealthGet 1000 (next_health w)] ∧
    forallb (λ ev, is_get ev || is_report ev) evs = true.
Proof.
  open_world w. unfold next_health, answers_200. intros Hp; cbn in *.
  subst pf. unfold is_service_running. run_prims.
  destruct hs as [|o hs]; run;
    (do 2 eexists; split; [reflexivity|]; split; [reflexivity|]; split;
     [unfold added; cbn; rewrite <- ?app_assoc; reflexivity|]);
    split; reflexivity.
Qed.

Lemma check_without_pid_record_witness :
  let w := cold_world [answer 200 false] in
  ∃ w' evs,
    is_service_running w = (Val (answers_200 (next_health w)), w') ∧
    pid_file w' = None ∧ added w w' evs ∧
    List.filter is_get evs = [EvHealthGet 1000 (next_health w)] ∧
    forallb (λ ev, is_get ev || is_report ev) evs = true.
Proof.
  apply (check_without_pid_record (cold_world [answer 200 false])).
  reflexivity.
Defined.

(** A PID file that cannot be read or parsed is deleted by the check,
    which then answers what the external probe says. *)
Theorem unparsable_pid_record_dropped_then_probed (w : World) (f : FileData) :
  pid_file w = Some f → persisted_pid w = None →
  ∃ w' evs,
    is_service_running w = (Val (answers_200 (next_health w)), w') ∧
    pid_file w' = None ∧ added w w' evs ∧
    List.filter is_get evs = [EvHealthGet 1000 (next_health w)].
Proof.
  open_world w. unfold persisted_pid, next_health, answers_200.
  intros Hf Hp; cbn in *. subst pf.
  unfold is_service_running. run_prims.
  destruct hs as [|o hs]; destruct f as [text|]; cbn in Hp; run;
    (do 2 eexists; split; [reflexivity|]; split; [reflexivity|]; split;
     [unfold added; cbn; rewrite <- ?app_assoc; reflexivity|]);
    reflexivity.
Qed.

Lemma unparsable_pid_record_dropped_then_probed_witness :
  let w := unreadable_world [answer 503 false] in
  ∃ w' evs,
    is_service_running w = (Val (answers_200 (next_health w)), w') ∧
    pid_file w' = None ∧ added w w' evs ∧
    List.filter is_get evs = [EvHealthGet 1000 (next_health w)].
Proof.
  apply (unparsable_pid_record_dropped_then_probed
           (unreadable_world [answer 503 false]) Unreadable); reflexivity.
Defined.

(** The recorded service answers 200: the check is that one request
    (timeout 2 s) and nothing else; the PID record stays and the external
    probe is not made. *)
Theorem responsive_service_keeps_pid_record (w : World) (pid : Z) :
  persisted_pid w = Some pid → is_ours w pid →
  answers_200 (next_health w) = true →
  ∃ w', is_service_running w = (Val true, w') ∧
        pid_file w' = pid_file w ∧ procs w' = procs w ∧
        added w w' [EvHealthGet 2000 (next_health w)] ∧
        health w' = tail (health w).
Proof.
  open_world w. unfold persisted_pid, is_ours, next_health, answers_200, added.
  intros Hp (p & argv & Hl & Hc & Ha) Hr; cbn in *.
  destruct pf as [[text|]|]; try discriminate.
  unfold is_service_running. run_prims.
  destruct hs as [|o hs]; cbn in Hr; run; try congruence;
    eexists; split_and?; reflexivity.
Qed.

Lemma responsive_service_keeps_pid_record_witness :
  let w := supervised_world [answer 200 false] in
  ∃ w', is_service_running w = (Val true, w') ∧
        pid_file w' = pid_file w ∧ procs w' = procs w ∧
        added w w' [EvHealthGet 2000 (next_health w)] ∧
        health w' = tail (health w).
Proof.
  apply (responsive_service_keeps_pid_record
           (supervised_world [answer 200 false]) 4242);
    [reflexivity | | reflexivity].
  exists service_proc, ["/usr/bin/python3"; "/opt/chatterbox/tts_service.py";
                        "--host"; "127.0.0.1"; "--port"; "8000"].
  split_and?; reflexivity.
Defined.

(** The recorded service is alive but the request to it fails (refused,
    timed out): the check answers false after that single request; the
    PID record stays and the external probe is not made. *)
Theorem unanswered_request_keeps_pid_record (w : World) (pid : Z) :
  persisted_pid w = Some pid → is_ours w pid →
  reply (next_health w) = None →
  ∃ w', is_service_running w = (Val false, w') ∧
        pid_file w' = pid_file w ∧ procs w' = procs w ∧
        added w w' [EvHealthGet 2000 (next_health w)] ∧
        health w' = tail (health w).
Proof.
  open_world w. unfold persisted_pid, is_ours, next_health, added.
  intros Hp (p & argv & Hl & Hc & Ha) Hr; cbn in *.
  destruct pf as [[text|]|]; try discriminate.
  unfold is_service_running. run_prims.
  destruct hs as [|o hs]; cbn in Hr; run; try congruence;
    eexists; split_and?; reflexivity.
Qed.

Lemma unanswered_request_keeps_pid_record_witness :
  let w := supervised_world [] in
  ∃ w', is_service_running w = (Val false, w') ∧
        pid_file w' = pid_file w ∧ procs w' = procs w ∧
        added w w' [EvHealthGet 2000 (next_health w)] ∧
        health w' = tail (health w).
Proof.
  apply (unanswered_request_keeps_pid_record (supervised_world []) 4242);
    [reflexivity | | reflexivity].
  exists service_proc, ["/usr/bin/python3"; "/opt/chatterbox/tts_service.py";
                        "--host"; "127.0.0.1"; "--port"; "8000"].
  split_and?; reflexivity.
Defined.



(** ** [stop_service], path by path *)

(** Without a PID file [stop_service] gives up at once: it returns
    false, only logs, sends no signal and does not wait. *)
Theorem stop_without_pid_record (w : World) :
  pid_file w = None →
  ∃ w' evs, stop_service w = (Val false, w') ∧ added w w' evs ∧
            forallb is_report evs = true ∧
            pid_file w' = None ∧ procs w' = procs w ∧ clock w' = clock w.
Proof.
  open_world w. intros Hp; cbn in *. subst pf.
  unfold stop_service, added. run_prims. cbn.
  do 2 eexists; split; [reflexivity|]; split;
    [cbn; rewrite <- ?app_assoc; reflexivity|]; split_and?; reflexivity.
Qed.

Lemma stop_without_pid_record_witness :
  ∃ w' evs, stop_service idle_world = (Val false, w') ∧
            added idle_world w' evs ∧ forallb is_report evs = true ∧
            pid_file w' = None ∧ procs w' = procs idle_world ∧
            clock w' = clock idle_world.
Proof. apply (stop_without_pid_record idle_world). reflexivity. Defined.


(** A signal that is refused ends [stop_service] without a grace
    period: it returns false, keeps the PID record, does not try SIGKILL
    and leaves the process running. *)
Theorem refused_signal_keeps_pid_record (w : World) (pid : Z) (p : Proc) :
  persisted_pid w = Some pid → procs w !! pid = Some p →
  signalable p = false →
  ∃ w' evs,
    stop_service w = (Val false, w') ∧ added w w' evs ∧
    pid_file w' = pid_file w ∧ procs w' = procs w ∧ clock w' = clock w ∧
    List.filter is_kill evs = [EvKill pid SIGTERM].
Proof.
  open_world w. unfold persisted_pid, added. intros Hp Hl Hs; cbn in *.
  destruct pf as [[text|]|]; try discriminate.
  unfold stop_service. run_prims.
  run.
  do 2 eexists; split; [reflexivity|]; split;
    [cbn; rewrite <- ?app_assoc; reflexivity|]; split_and?; reflexivity.
Qed.

Lemma refused_signal_keeps_pid_record_witness :
  ∃ w' evs,
    stop_service unowned_world = (Val false, w') ∧
    added unowned_world w' evs ∧
    pid_file w' = pid_file unowned_world ∧
    procs w' = procs unowned_world ∧ clock w' = clock unowned_world ∧
    List.filter is_kill evs = [EvKill 4242 SIGTERM].
Proof.
  apply (refused_signal_keeps_pid_record unowned_world 4242 unowned_proc);
    reflexivity.
Defined.

(** [stop_service] is not idempotent in its result: after a stop that
    returned true, a second stop finds no PID file, returns false and
    sends no signal. *)
Theorem second_stop_finds_nothing (w w1 : World) :
  stop_service w = (Val true, w1) →
  ∃ w2 evs, stop_service w1 = (Val false, w2) ∧ added w1 w2 evs ∧
            forallb is_report evs = true ∧ clock w2 = clock w1.
Proof.
  intros Hstop.
  assert (pid_file w1 = None) as Hnone.
  { revert Hstop. open_world w. unfold stop_service. run_prims.
    run; intros E; simplify_eq; reflexivity. }
  clear Hstop w. open_world w1. cbn in Hnone. subst pf.
  unfold stop_service, added. run_prims. cbn.
  do 2 eexists; split; [reflexivity|]; split;
    [cbn; rewrite <- ?app_assoc; reflexivity|]; split; reflexivity.
Qed.

Lemma second_stop_finds_nothing_witness :
  let w := supervised_world [] in
  ∃ w2 evs, stop_service (snd (stop_service w)) = (Val false, w2) ∧
            added (snd (stop_service w)) w2 evs ∧
            forallb is_report evs = true ∧
            clock w2 = clock (snd (stop_service w)).
Proof.
  apply (second_stop_finds_nothing (supervised_world [])
           (snd (stop_service (supervised_world [])))).
  vm_compute. reflexivity.
Defined.

(** ** [wait_for_service], edge and exit *)

(** With no time allowed [wait_for_service] does not poll at all: it
    returns false at once and changes nothing. *)
Theorem wait_without_time (timeout : Z) (w : World) :
  timeout ≤ 0 → wait_for_service timeout w = (Val false, w).
Proof.
  intros Hle. unfold wait_for_service, seq_ret, bind, time_time, ret, wait_fuel.
  replace (Z.to_nat (timeout / 500) + 2)%nat
    with (S (Z.to_nat (timeout / 500) + 1)) by lia.
  rewrite wait_loop_unfold.
  replace (clock w - clock w) with 0 by lia.
  destruct (0 <? timeout) eqn:Hlt; [apply Z.ltb_lt in Hlt; lia | reflexivity].
Qed.

Lemma wait_without_time_witness :
  wait_for_service 0 (cold_world [answer 200 true])
  = (Val false, cold_world [answer 200 true]).
Proof. apply (wait_without_time 0 (cold_world [answer 200 true])). lia. Defined.

Lemma drop_succ_tail {A} (n : nat) (l : list A) :
  drop (S n) l = drop n (tail l).
Proof. destruct l; [by destruct n | reflexivity]. Qed.

Lemma wait_loop_first_ready (fuel : nat) (start timeout : Z) (w w' : World) :
  wait_loop fuel start timeout w = (Val (Return true), w') →
  ∃ k, model_ready (nth_health (health w) k) = true ∧
       (∀ j, (j < k)%nat → model_ready (nth_health (health w) j) = false) ∧
       clock w - start + poll_start (health w) k < timeout ∧
       health w' = drop (S k) (health w) ∧
       clock w' = clock w + poll_start (health w) k
                  + Z.of_N (took (nth_health (health w) k)).
Proof.
  revert w. induction fuel as [|fuel IH]; intros w Hrun; [discriminate|].
  rewrite wait_loop_unfold in Hrun.
  destruct (clock w - start <? timeout) eqn:Hlt; [|discriminate].
  apply Z.ltb_lt in Hlt.
  destruct (polled_facts 1000 w) as (_ & Pc & Ph & _).
  destruct (model_ready (next_health w)) eqn:Hready.
  - injection Hrun as <-. exists 0%nat.
    rewrite nth_health_0, Ph, Pc. cbn [poll_start].
    split_and?; [done | lia | lia | by destruct (health w) | lia].
  - destruct (slept_facts 500 (polled 1000 w)) as (_ & Sc & Sh & _).
    destruct (IH _ Hrun) as (k & Hk & Hbefore & Htime & Hh & Hc).
    rewrite Sh, Ph in Hk, Hbefore, Htime, Hh, Hc. rewrite Sc, Pc in Htime, Hc.
    exists (S k). rewrite <- nth_health_tail. cbn [poll_start].
    rewrite nth_health_0. split_and?.
    + exact Hk.
    + intros [|j] Hj; [by rewrite nth_health_0|].
      rewrite <- nth_health_tail. apply Hbefore. lia.
    + lia.
    + by rewrite (drop_succ_tail (S k)).
    + lia.
Qed.

(** [wait_for_service] stops at the first poll that finds the model
    ready: every earlier answer was not ready, later answers are left
    unread, and the call returns as soon as that poll is answered. *)
Theorem wait_stops_at_first_ready (timeout : Z) (w w' : World) :
  wait_for_service timeout w = (Val true, w') →
  ∃ k, model_ready (nth_health (health w) k) = true ∧
       (∀ j, (j < k)%nat → model_ready (nth_health (health w) j) = false) ∧
       poll_start (health w) k < timeout ∧
       health w' = drop (S k) (health w) ∧
       clock w' = clock w + poll_start (health w) k
                  + Z.of_N (took (nth_health (health w) k)).
Proof.
  unfold wait_for_service, seq_ret, bind, time_time, ret. intros Hrun.
  destruct (wait_loop (wait_fuel timeout) (clock w) timeout w)
    as [[[|[|]]| |] w3] eqn:E; try discriminate.
  injection Hrun as <-.
  destruct (wait_loop_first_ready _ _ _ _ _ E) as (k & ? & ? & ? & ? & ?).
  exists k. split_and?; try done. lia.
Qed.

Lemma wait_stops_at_first_ready_witness :
  let w := cold_world [answer 200 false; answer 200 true; answer 200 true] in
  ∃ k, model_ready (nth_health (health w) k) = true ∧
       (∀ j, (j < k)%nat → model_ready (nth_health (health w) j) = false) ∧
       poll_start (health w) k < 30000 ∧
       health (snd (wait_for_service 30000 w)) = drop (S k) (health w) ∧
       clock (snd (wait_for_service 30000 w))
       = clock w + poll_start (health w) k
         + Z.of_N (took (nth_health (health w) k)).
Proof.
  apply (wait_stops_at_first_ready 30000
           (cold_world [answer 200 false; answer 200 true; answer 200 true])
           (snd (wait_for_service 30000
                   (cold_world [answer 200 false; answer 200 true;
                                answer 200 true])))).
  vm_compute. reflexivity.
Defined.

(** ** The PID text: what [str] writes, [int] reads back *)

Lemma digit_char_facts (d : N) :
  (d < 10)%N →
  digit_val (pretty_N_char d) = Some (Z.of_N d) ∧
  is_space (pretty_N_char d) = false ∧
  Ascii.eqb (pretty_N_char d) "-" = false ∧
  Ascii.eqb (pretty_N_char d) "+" = false.
Proof.
  intros Hd.
  assert (d = 0 ∨ d = 1 ∨ d = 2 ∨ d = 3 ∨ d = 4 ∨ d = 5 ∨ d = 6 ∨ d = 7
          ∨ d = 8 ∨ d = 9)%N as Hcases by lia.
  repeat (destruct Hcases as [-> | Hcases]; [by vm_compute|]).
  subst d. by vm_compute.
Qed.

Lemma pretty_N_go_Forall (P : ascii → Prop) :
  (∀ d, (d < 10)%N → P (pretty_N_char d)) →
  ∀ x s, Forall P (list_ascii_of_string s) →
         Forall P (list_ascii_of_string (pretty_N_go x s)).
Proof.
  intros HP x. induction (N.lt_wf_0 x) as [x _ IH]; intros s Hs.
  destruct (decide (x = 0%N)) as [-> | Hx]; [by rewrite pretty_N_go_0|].
  rewrite pretty_N_go_step by lia.
  apply IH; [apply N.div_lt; lia|].
  cbn. constructor; [|exact Hs]. apply HP, N.mod_lt. lia.
Qed.

Lemma int_digits_pretty_N_go (x : N) :
  ∃ p : Z, ∀ s acc b,
    int_digits acc b (list_ascii_of_string (pretty_N_go x s))
    = int_digits (acc * p + Z.of_N x) (b || negb (x =? 0)%N)
        (list_ascii_of_string s).
Proof.
  induction (N.lt_wf_0 x) as [x _ IH].
  destruct (decide (x = 0%N)) as [-> | Hx].
  - exists 1. intros s acc b. rewrite pretty_N_go_0. cbn.
    rewrite orb_false_r. f_equal. lia.
  - destruct (IH (x / 10)%N) as [p Hp]; [apply N.div_lt; lia|].
    exists (10 * p). intros s acc b.
    rewrite pretty_N_go_step by lia. rewrite Hp.
    cbn [list_ascii_of_string int_digits].
    destruct (digit_char_facts (x mod 10)%N) as (-> & _);
      [apply N.mod_lt; lia|].
    assert ((x =? 0)%N = false) as -> by (apply N.eqb_neq; lia).
    rewrite orb_true_r. f_equal.
    pose proof (N.div_mod x 10 ltac:(lia)) as Hdm.
    apply (f_equal Z.of_N) in Hdm. rewrite N2Z.inj_add, N2Z.inj_mul in Hdm.
    change (Z.of_N 10) with 10 in Hdm.
    set (q := Z.of_N (x / 10)) in *. set (r := Z.of_N (x mod 10)) in *.
    clearbody q r. lia.
Qed.

Lemma lstrip_id (cs : list ascii) :
  Forall (λ c, is_space c = false) cs → lstrip cs = cs.
Proof. destruct 1 as [|c cs Hc _]; cbn; [reflexivity | by rewrite Hc]. Qed.

Lemma strip_id (s : string) :
  Forall (λ c, is_space c = false) (list_ascii_of_string s) → strip s = s.
Proof.
  intros Hs. unfold strip.
  rewrite (lstrip_id _ Hs), (lstrip_id _ (Forall_rev Hs)), rev_involutive.
  apply string_of_list_ascii_of_string.
Qed.

Lemma pretty_pos_chars (x : positive) :
  ∃ c cs,
    list_ascii_of_string (pretty_N_go (Npos x) EmptyString) = c :: cs ∧
    Forall (λ c, is_space c = false) (c :: cs) ∧
    Ascii.eqb c "-" = false ∧ Ascii.eqb c "+" = false ∧
    int_digits 0 false (c :: cs) = Some (Zpos x).
Proof.
  destruct (int_digits_pretty_N_go (Npos x)) as [p Hp].
  specialize (Hp EmptyString 0 false).
  replace (int_digits (0 * p + Z.of_N (Npos x))
             (false || negb (Npos x =? 0)%N)
             (list_ascii_of_string EmptyString))
    with (Some (Zpos x)) in Hp by (cbn; f_equal; lia).
  pose proof (pretty_N_go_Forall
                (λ c, is_space c = false ∧ Ascii.eqb c "-" = false ∧
                      Ascii.eqb c "+" = false)
                (λ d Hd, proj2 (digit_char_facts d Hd))
                (Npos x) EmptyString ltac:(constructor)) as Hall.
  destruct (list_ascii_of_string (pretty_N_go (Npos x) EmptyString))
    as [|c cs]; [discriminate|].
  exists c, cs. inversion Hall as [|? ? (? & ? & ?) ?]; subst.
  split_and?; try done.
  eapply Forall_impl; [exact Hall|]. by intros ? (? & _).
Qed.

(** [int(str(pid))] is [pid], and [strip] leaves [str(pid)] alone. *)
Lemma py_int_pretty (z : Z) :
  strip (pretty z) = pretty z ∧ py_int (pretty z) = Some z.
Proof.
  destruct z as [|x|x]; [split; reflexivity| |].
  - destruct (pretty_pos_chars x) as (c & cs & Hcs & Hsp & Hm & Hp & Hint).
    assert (pretty (Zpos x) = pretty_N_go (Npos x) EmptyString) as ->
      by reflexivity.
    assert (strip (pretty_N_go (Npos x) EmptyString)
            = pretty_N_go (Npos x) EmptyString) as Hstrip
      by (apply strip_id; by rewrite Hcs).
    split; [exact Hstrip|].
    unfold py_int. rewrite Hstrip, Hcs. cbv beta iota.
    rewrite Hm, Hp. exact Hint.
  - destruct (pretty_pos_chars x) as (c & cs & Hcs & Hsp & Hm & Hp & Hint).
    assert (pretty (Zneg x)
            = String "-" (pretty_N_go (Npos x) EmptyString)) as ->
      by reflexivity.
    assert (strip (String "-" (pretty_N_go (Npos x) EmptyString))
            = String "-" (pretty_N_go (Npos x) EmptyString)) as Hstrip.
    { apply strip_id. cbn [list_ascii_of_string]. rewrite Hcs.
      by constructor. }
    split; [exact Hstrip|].
    unfold py_int. rewrite Hstrip. cbn [list_ascii_of_string].
    change (Ascii.eqb "-" "-") with true. cbv beta iota.
    rewrite Hcs, Hint. reflexivity.
Qed.

(** What [PID_FILE.write_text(str(pid))] stores is what
    [int(PID_FILE.read_text().strip())] gives back, whatever the file held
    before. *)
Theorem written_pid_reads_back (pid : Z) (w : World) :
  (write_text (pretty pid);; text ← read_text; int_of_text text) w
  = (Val pid, snd (write_text (pretty pid) w)).
Proof.
  destruct (py_int_pretty pid) as [Hstrip Hint].
  unfold bind, write_text, read_text, int_of_text. cbn.
  rewrite Hstrip, Hint. reflexivity.
Qed.

(** ** [start_service]: what a cold start leaves behind *)








(** A spawn that fails leaves no trace in the PID file: [start_service]
    raises the error before writing the file or polling the endpoint. *)
Theorem failed_spawn_writes_no_pid (w w1 : World) :
  is_service_running w = (Val false, w1) → spawn_result w = None →
  ∃ w' evs,
    start_service w = (Raised OSError, w') ∧ added w1 w' evs ∧
    pid_file w' = pid_file w1 ∧ procs w' = procs w1 ∧
    forallb (λ ev, negb (is_get ev || is_write_pid ev)) evs = true ∧
    In (EvSpawn (service_argv w) None) evs.
Proof.
  intros Hrun Hsp.
  destruct (is_service_running_frame _ _ _ Hrun)
    as (_ & Hspawn & Hex & Hdir & _).
  rewrite Hsp in Hspawn.
  unfold start_service, added. run_prims. rewrite Hrun. cbn. rewrite Hspawn.
  do 2 eexists; split; [reflexivity|]; split;
    [cbn; rewrite <- ?app_assoc; reflexivity|].
  split_and?; try reflexivity.
  unfold service_argv. cbn. rewrite Hex, Hdir. eauto 10.
Qed.

Lemma failed_spawn_writes_no_pid_witness :
  let w := no_spawn_world in
  ∃ w' evs,
    start_service w = (Raised OSError, w') ∧
    added (snd (is_service_running w)) w' evs ∧
    pid_file w' = pid_file (snd (is_service_running w)) ∧
    procs w' = procs (snd (is_service_running w)) ∧
    forallb (λ ev, negb (is_get ev || is_write_pid ev)) evs = true ∧
    In (EvSpawn (service_argv w) None) evs.
Proof.
  apply (failed_spawn_writes_no_pid no_spawn_world); reflexivity.
Defined.



(** ** [start_service] on a running service, [restart_service] with
       nothing on record, [status] *)

Lemma start_service_noop_when_running_witness :
  let w := supervised_world [answer 200 true] in
  ∃ w' evs, start_service w = (Val true, w') ∧
            added (snd (is_service_running w)) w' evs ∧
            pid_file w' = pid_file (snd (is_service_running w)) ∧
            forallb (λ ev, negb (is_spawn ev || is_write_pid ev)) evs = true.
Proof.
  apply (start_service_noop_when_running
           (supervised_world [answer 200 true])).
  reflexivity.
Defined.

(** With no PID file, [restart_service] is a start delayed by the two
    seconds of its pause: the failed stop is ignored, nobody is
    signalled, and [start_service] runs on a world that differs from the
    first only by that pause and the log lines. *)
Theorem restart_without_pid_record (w : World) :
  pid_file w = None →
  ∃ w0 evs,
    restart_service w = start_service w0 ∧ added w w0 evs ∧
    List.filter (λ ev, negb (is_report ev)) evs = [EvSleep 2000] ∧
    clock w0 = clock w + 2000 ∧ pid_file w0 = None ∧
    procs w0 = procs w ∧ health w0 = health w ∧
    spawn_result w0 = spawn_result w.
Proof.
  open_world w. intros Hp; cbn in *. subst pf.
  unfold restart_service, stop_service, added. run_prims. cbn.
  do 2 eexists; split; [reflexivity|]; split;
    [cbn; rewrite <- ?app_assoc; reflexivity|]; split_and?; reflexivity.
Qed.

Lemma restart_without_pid_record_witness :
  let w := cold_world [connection_refused; answer 200 true] in
  ∃ w0 evs,
    restart_service w = start_service w0 ∧ added w w0 evs ∧
    List.filter (λ ev, negb (is_report ev)) evs = [EvSleep 2000] ∧
    clock w0 = clock w + 2000 ∧ pid_file w0 = None ∧
    procs w0 = procs w ∧ health w0 = health w ∧
    spawn_result w0 = spawn_result w.
Proof.
  apply (restart_without_pid_record
           (cold_world [connection_refused; answer 200 true])).
  reflexivity.
Defined.

